(** * torch_points3d.modules.TorchSparse.modules

    A shallow embedding of the residual building blocks of
    [torch_points3d/modules/TorchSparse/modules.py]: [ResBlock],
    [BottleneckBlock], [ResNetDown] and [ResNetUp].

    What a constructor builds is a tree of layer descriptions; Python
    exceptions are values of the error monad [sum exn].  What a [forward]
    computes is written once, over an arbitrary monad [m] in which the
    calls into the sparse-tensor library live (layer application, tensor
    addition, [TS.cat]). *)

From Stdlib Require Import ZArith List String Bool Lia.
From ExtLib Require Import Structures.Monad Structures.MonadExc.
From ExtLib Require Import Structures.MonadLaws.
From ExtLib Require Import Data.Monads.EitherMonad Data.Monads.OptionMonad.
Import ListNotations.
Import MonadNotation.
Local Open Scope Z_scope.
Local Open Scope monad_scope.

Set Implicit Arguments.

(** ** Python values *)

(** The exceptions the constructors can raise. *)
Inductive exn : Type :=
| IndexError
| AttributeError
| TypeError
| ZeroDivisionError.

(** A computation that returns an [A] or raises. *)
Definition result (A : Type) : Type := sum exn A.

#[global] Instance Monad_result : Monad result := Monad_either exn.
#[global] Instance Exception_result : MonadExc exn result :=
  Exception_either exn.

(** [l[i]] for a list and a literal index [i >= 0]. *)
Definition getitem {A : Type} (l : list A) (i : nat) : result A :=
  match nth_error l i with
  | Some a => ret a
  | None => raise IndexError
  end.

(** [a // b] on Python integers: floor division, which is [Z.div]. *)
Definition floordiv (a b : Z) : result Z :=
  if b =? 0 then raise ZeroDivisionError else ret (a / b).

(** ** Layers of the sparse-tensor library *)

Record Conv3d_args : Type := {
  in_channels : Z;
  out_channels : Z;
  kernel_size : Z;
  stride : Z;
  dilation : Z;
  transpose : bool
}.

(** A layer is the record of the arguments its library constructor was
    called with; the checks the library makes on them are not part of
    it. *)
Inductive layer : Type :=
| Conv3d (a : Conv3d_args)
| BatchNorm (num_features : Z)
| ReLU (inplace : bool).

(** Something that is called like a convolution class:
    [f(in, out, kernel_size=k, stride=s, dilation=d)], the last two
    keywords being optional at the call sites of this file. *)
Definition callable : Type := Z -> Z -> Z -> option Z -> option Z -> layer.

Definition default (d : Z) (o : option Z) : Z :=
  match o with Some v => v | None => d end.

(** [TS.nn.Conv3d(in, out, kernel_size, stride=1, dilation=1,
    transpose=False)]. *)
Definition Conv3d_with (tr : bool) : callable :=
  fun i o k s d =>
    Conv3d {| in_channels := i; out_channels := o; kernel_size := k;
              stride := default 1 s; dilation := default 1 d;
              transpose := tr |}.

Definition TS_nn_Conv3d : callable := Conv3d_with false.

(** [partial(TS.nn.Conv3d, transpose=True)]. *)
Definition partial_Conv3d_transpose : callable := Conv3d_with true.

(** ** Seq *)

(** Modelled from the spec: [Seq] of [torch_points3d.core.common_modules]
    is not among the sources.  It is the "sequential stack of
    pre-existing layers": [append] puts a module at the end of the stack
    and returns the stack, and calling the stack applies its modules in
    order (see [Seq_call] below). *)
Definition Seq (A : Type) : Type := list A.

Definition Seq_new {A : Type} : Seq A := [].

Definition append {A : Type} (s : Seq A) (module : A) : Seq A :=
  s ++ [module].

(** [s +> f] reads [s.append(f)]. *)
Notation "s +> f" := (append s f) (at level 50, left associativity).

(** The truth value of a [Seq] in [if self.downsample:] and
    [if self.blocks:]: a stack is true when it holds a module.  ([None],
    the other value these attributes take, is false.) *)
Definition Seq_bool {A : Type} (s : Seq A) : bool :=
  negb (Nat.eqb (List.length s) 0).

(** ** The library calls a forward pass makes *)

Class Backend (tensor : Type) (m : Type -> Type) : Type := {
  (** calling a library layer on a tensor *)
  layer_call : layer -> tensor -> m tensor;
  (** [a + b] on sparse tensors *)
  tensor_add : tensor -> tensor -> m tensor;
  (** [TS.cat([a, b])] *)
  TS_cat : list tensor -> m tensor
}.

Section SeqCall.
Context {tensor : Type} {m : Type -> Type} {Mm : Monad m}.

(** Calling a [Seq]: each module is applied to the output of the one
    before it. *)
Fixpoint Seq_call {A : Type} (call : A -> tensor -> m tensor)
         (s : Seq A) (x : tensor) : m tensor :=
  match s with
  | [] => ret x
  | f :: s' => y <- call f x ;; Seq_call call s' y
  end.
End SeqCall.

(** ** ResBlock *)

Module ResBlock.

Record t : Type := mk {
  block : Seq layer;
  downsample : option (Seq layer)
}.

Definition __init__ (input_nc output_nc : Z) (convolution : callable) : t :=
  let block :=
    Seq_new
    +> convolution input_nc output_nc 3 (Some 1) None
    +> BatchNorm output_nc
    +> ReLU true
    +> convolution output_nc output_nc 3 (Some 1) None
    +> BatchNorm output_nc
    +> ReLU true in
  let downsample :=
    if negb (input_nc =? output_nc) then
      Some (Seq_new
            +> TS_nn_Conv3d input_nc output_nc 1 (Some 1) None
            +> BatchNorm output_nc)
    else None in
  mk block downsample.

Section Forward.
Context {tensor : Type} {m : Type -> Type} {Mm : Monad m}
        {B : Backend tensor m}.

Definition forward (self : t) (x : tensor) : m tensor :=
  out <- Seq_call layer_call (block self) x ;;
  match downsample self with
  | Some d =>
      if Seq_bool d then r <- Seq_call layer_call d x ;; tensor_add out r
      else tensor_add out x
  | None => tensor_add out x
  end.
End Forward.

End ResBlock.

(** ** BottleneckBlock *)

Module BottleneckBlock.

Record t : Type := mk {
  block : Seq layer;
  downsample : option (Seq layer)
}.

(** [output_nc // reduction] is written out at each use in the source;
    the first use raises when [reduction] is zero, the later ones give
    the same number. *)
Definition __init__ (input_nc output_nc : Z) (convolution : callable)
           (reduction : Z) : result t :=
  mid <- floordiv output_nc reduction ;;
  let block :=
    Seq_new
    +> TS_nn_Conv3d input_nc mid 1 (Some 1) None
    +> BatchNorm mid
    +> ReLU true
    +> convolution mid mid 3 (Some 1) None
    +> BatchNorm mid
    +> ReLU true
    +> TS_nn_Conv3d mid output_nc 1 None None
    +> BatchNorm output_nc
    +> ReLU true in
  let downsample :=
    if negb (input_nc =? output_nc) then
      Some (Seq_new
            +> convolution input_nc output_nc 1 (Some 1) None
            +> BatchNorm output_nc)
    else None in
  ret (mk block downsample).

(** The default of the [reduction] parameter. *)
Definition reduction_default : Z := 4.

Section Forward.
Context {tensor : Type} {m : Type -> Type} {Mm : Monad m}
        {B : Backend tensor m}.

Definition forward (self : t) (x : tensor) : m tensor :=
  out <- Seq_call layer_call (block self) x ;;
  match downsample self with
  | Some d =>
      if Seq_bool d then r <- Seq_call layer_call d x ;; tensor_add out r
      else tensor_add out x
  | None => tensor_add out x
  end.
End Forward.

End BottleneckBlock.

(** ** The module object [_res_blocks] *)

(** What [getattr(_res_blocks, name)] can give: one of the two block
    classes, or some object that is not one of them. *)
Inductive attr : Type :=
| Class_ResBlock
| Class_BottleneckBlock
| Other_object.

(** The names the file binds at its top level, by [import], [class] and
    assignment. *)
Definition module_globals : list (string * attr) :=
  [ ("torch", Other_object); ("TS", Other_object);
    ("torchsparse", Other_object); ("sys", Other_object);
    ("partial", Other_object); ("Seq", Other_object);
    ("Identity", Other_object);
    ("ResBlock", Class_ResBlock);
    ("BottleneckBlock", Class_BottleneckBlock);
    ("_res_blocks", Other_object);
    ("ResNetDown", Other_object); ("ResNetUp", Other_object) ]%string.

Fixpoint assoc {A : Type} (k : string) (l : list (string * A)) : option A :=
  match l with
  | [] => None
  | (k', v) :: l' => if String.eqb k k' then Some v else assoc k l'
  end.

(** [getattr(_res_blocks, name)].  [implicit_attr] tells which further
    names the interpreter itself defines on a module object
    ([__name__], [__doc__], ...); none of them is a block class. *)
Definition getattr_res_blocks (implicit_attr : string -> bool)
           (name : string) : result attr :=
  match assoc name module_globals with
  | Some a => ret a
  | None => if implicit_attr name then ret Other_object
            else raise AttributeError
  end.

(** A residual block held by [ResNetDown.blocks]. *)
Inductive block_module : Type :=
| Is_ResBlock (b : ResBlock.t)
| Is_BottleneckBlock (b : BottleneckBlock.t).

(** [block(input_nc, output_nc, convolution)] for the object [block] that
    [getattr] returned.  None of the other objects of the module accepts
    these three positional arguments: a call to one of them ends in a
    [TypeError]. *)
Definition call_block (block : attr) (input_nc output_nc : Z)
           (convolution : callable) : result block_module :=
  match block with
  | Class_ResBlock =>
      ret (Is_ResBlock (ResBlock.__init__ input_nc output_nc convolution))
  | Class_BottleneckBlock =>
      b <- BottleneckBlock.__init__ input_nc output_nc convolution
             BottleneckBlock.reduction_default ;;
      ret (Is_BottleneckBlock b)
  | Other_object => raise TypeError
  end.

(** ** ResNetDown *)

Module ResNetDown.

Record t : Type := mk {
  conv_in : Seq layer;
  blocks : option (Seq block_module)
}.

Definition CONVOLUTION : callable := TS_nn_Conv3d.

(** The loop [for _ in range(N)] of the constructor, [n] iterations
    left, [blocks] being [self.blocks]. *)
Fixpoint init_loop (block : attr) (self_CONVOLUTION : callable)
         (down_conv_nn : list Z) (n : nat) (conv1_output : Z)
         (blocks : Seq block_module) : result (Seq block_module) :=
  match n with
  | O => ret blocks
  | S n' =>
      output_nc <- getitem down_conv_nn 1 ;;
      b <- call_block block conv1_output output_nc self_CONVOLUTION ;;
      conv1_output' <- getitem down_conv_nn 1 ;;
      init_loop block self_CONVOLUTION down_conv_nn n' conv1_output'
                (blocks +> b)
  end.

(** The body of [__init__]; [self_CONVOLUTION] is [self.CONVOLUTION],
    the class attribute that [ResNetUp] overrides. *)
Definition init_body (implicit_attr : string -> bool)
           (self_CONVOLUTION : callable)
           (down_conv_nn : list Z) (kernel_size dilation stride N : Z)
           (block : string) : result t :=
  block <- getattr_res_blocks implicit_attr block ;;
  conv1_output <- (if stride >? 1 then getitem down_conv_nn 0
                   else getitem down_conv_nn 1) ;;
  input_nc <- getitem down_conv_nn 0 ;;
  let conv_in :=
    Seq_new
    +> self_CONVOLUTION input_nc conv1_output kernel_size
         (Some stride) (Some dilation)
    +> BatchNorm conv1_output
    +> ReLU true in
  if N >? 0 then
    blocks <- init_loop block self_CONVOLUTION down_conv_nn (Z.to_nat N)
                conv1_output Seq_new ;;
    ret (mk conv_in (Some blocks))
  else
    ret (mk conv_in None).

(** [ResNetDown(down_conv_nn=[], kernel_size=2, dilation=1, stride=2,
    N=1, block="ResBlock")]. *)
Definition __init__ (implicit_attr : string -> bool)
           (down_conv_nn : list Z) (kernel_size dilation stride N : Z)
           (block : string) : result t :=
  init_body implicit_attr CONVOLUTION down_conv_nn kernel_size dilation
            stride N block.

Section Forward.
Context {tensor : Type} {m : Type -> Type} {Mm : Monad m}
        {B : Backend tensor m}.

(** Calling a module of [self.blocks]. *)
Definition block_call (b : block_module) (x : tensor) : m tensor :=
  match b with
  | Is_ResBlock r => ResBlock.forward r x
  | Is_BottleneckBlock r => BottleneckBlock.forward r x
  end.

Definition forward (self : t) (x : tensor) : m tensor :=
  out <- Seq_call layer_call (conv_in self) x ;;
  match blocks self with
  | Some bs => if Seq_bool bs then Seq_call block_call bs out else ret out
  | None => ret out
  end.
End Forward.

End ResNetDown.

(** ** ResNetUp *)

Module ResNetUp.

Definition CONVOLUTION : callable := partial_Conv3d_transpose.

(** [block] is what [**kwargs] hands on to the base constructor. *)
Definition __init__ (implicit_attr : string -> bool)
           (up_conv_nn : list Z) (kernel_size dilation stride N : Z)
           (block : string) : result ResNetDown.t :=
  ResNetDown.init_body implicit_attr CONVOLUTION up_conv_nn kernel_size
                       dilation stride N block.

Section Forward.
Context {tensor : Type} {m : Type -> Type} {Mm : Monad m}
        {B : Backend tensor m}.

Definition forward (self : ResNetDown.t) (x : tensor)
           (skip : option tensor) : m tensor :=
  match skip with
  | Some s => inp <- TS_cat [x; s] ;; ResNetDown.forward self inp
  | None => ResNetDown.forward self x
  end.
End Forward.

End ResNetUp.

(** ** Reading a forward pass on channel counts *)

(** The library's shape rules, as a [Backend] whose tensors are channel
    counts and whose failure is [None]: a convolution takes
    [in_channels] channels to [out_channels], a batch normalization of
    [n] features takes [n] channels to [n], an activation keeps the
    count, a sum needs two tensors of one count, and [TS.cat] adds the
    counts up.  The rules compare counts only: what the library does
    with a layer whose width is not positive is outside them, and the
    statements about what a forward pass accepts are made for positive
    widths. *)
Module Channels.

Definition layer_channels (l : layer) (c : Z) : option Z :=
  match l with
  | Conv3d a => if c =? in_channels a then Some (out_channels a) else None
  | BatchNorm n => if c =? n then Some n else None
  | ReLU _ => Some c
  end.

Definition add_channels (a b : Z) : option Z :=
  if a =? b then Some a else None.

Definition cat_channels (l : list Z) : option Z :=
  Some (fold_right Z.add 0 l).

#[global] Instance backend : Backend Z option := {
  layer_call := layer_channels;
  tensor_add := add_channels;
  TS_cat := cat_channels
}.

End Channels.

(** ** The residual sum *)

Section ResidualSum.
Context {tensor : Type} {m : Type -> Type} {Mm : Monad m}
        {B : Backend tensor m}.

(** [forward] returns [block(x) + s(x)], [s] being the projection
    [downsample] when there is one, which is exactly when
    [input_nc != output_nc], and [s(x) = x] otherwise. *)
Definition returns_block_plus_shortcut (input_nc output_nc : Z)
           (block : Seq layer) (downsample : option (Seq layer))
           (forward : tensor -> m tensor) : Prop :=
  forall x : tensor,
    match downsample with
    | Some d =>
        input_nc <> output_nc /\
        forward x = (out <- Seq_call layer_call block x ;;
                     r <- Seq_call layer_call d x ;;
                     tensor_add out r)
    | None =>
        input_nc = output_nc /\
        forward x = (out <- Seq_call layer_call block x ;;
                     tensor_add out x)
    end.
End ResidualSum.

(** The attributes the interpreter itself gives a module object, used
    for [implicit_attr] in the examples below: the entries it puts in
    the module's dictionary, and the attributes a module has from its
    type and from [object]. *)
Definition dunder (name : string) : bool :=
  existsb (String.eqb name)
          [ "__name__"; "__doc__"; "__package__"; "__loader__";
            "__spec__"; "__file__"; "__cached__"; "__builtins__";
            "__dict__"; "__class__";
            "__init__"; "__new__"; "__repr__"; "__str__";
            "__getattribute__"; "__setattr__"; "__delattr__"; "__dir__";
            "__eq__"; "__ne__"; "__lt__"; "__le__"; "__gt__"; "__ge__";
            "__hash__"; "__format__"; "__sizeof__"; "__reduce__";
            "__reduce_ex__"; "__subclasshook__"; "__init_subclass__" ]%string.

(** ** The stages of [self.blocks] *)

(** [block_chain block convolution output_nc c bs]: the modules [bs] are
    built by the class [block], the first one from [c] to [output_nc]
    channels and every later one from [output_nc] to [output_nc]. *)
Inductive block_chain (block : attr) (convolution : callable)
          (output_nc : Z) : Z -> Seq block_module -> Prop :=
| chain_nil : forall c, block_chain block convolution output_nc c []
| chain_cons : forall c b bs,
    call_block block c output_nc convolution = inr b ->
    block_chain block convolution output_nc output_nc bs ->
    block_chain block convolution output_nc c (b :: bs).

(** ** Views of a built module *)

(** Applying [f] to the module a constructor returned, if it returned. *)
Definition result_map {A C : Type} (f : A -> C) (r : result A) : result C :=
  match r with
  | inr a => inr (f a)
  | inl e => inl e
  end.

(** The main branch and the projection shortcut of a residual block. *)
Definition main_branch (b : block_module) : Seq layer :=
  match b with
  | Is_ResBlock r => ResBlock.block r
  | Is_BottleneckBlock r => BottleneckBlock.block r
  end.

Definition shortcut (b : block_module) : option (Seq layer) :=
  match b with
  | Is_ResBlock r => ResBlock.downsample r
  | Is_BottleneckBlock r => BottleneckBlock.downsample r
  end.

(** Every library layer a residual block holds. *)
Definition block_layers (b : block_module) : list layer :=
  main_branch b ++ match shortcut b with Some d => d | None => [] end.

(** A layer that keeps the spatial resolution: no convolution other
    than one of stride 1 and dilation 1, with kernel size 1 or 3. *)
Definition keeps_resolution (l : layer) : Prop :=
  match l with
  | Conv3d a =>
      stride a = 1 /\ dilation a = 1 /\
      (kernel_size a = 1 \/ kernel_size a = 3)
  | BatchNorm _ | ReLU _ => True
  end.

(** Forgetting the [transpose] flag of the convolutions, in a layer, a
    residual block and a whole module. *)
Definition untranspose (l : layer) : layer :=
  match l with
  | Conv3d a =>
      Conv3d {| in_channels := in_channels a;
                out_channels := out_channels a;
                kernel_size := kernel_size a; stride := stride a;
                dilation := dilation a; transpose := false |}
  | BatchNorm n => BatchNorm n
  | ReLU b => ReLU b
  end.

Definition untranspose_block (b : block_module) : block_module :=
  match b with
  | Is_ResBlock r =>
      Is_ResBlock
        (ResBlock.mk (map untranspose (ResBlock.block r))
                     (option_map (map untranspose) (ResBlock.downsample r)))
  | Is_BottleneckBlock r =>
      Is_BottleneckBlock
        (BottleneckBlock.mk
           (map untranspose (BottleneckBlock.block r))
           (option_map (map untranspose) (BottleneckBlock.downsample r)))
  end.

Definition untranspose_module (self : ResNetDown.t) : ResNetDown.t :=
  ResNetDown.mk (map untranspose (ResNetDown.conv_in self))
                (option_map (map untranspose_block) (ResNetDown.blocks self)).

(** The channel counts the constructor of [ResNetDown] reads suffice:
    two of them, or one when [stride > 1] and no block is built. *)
Definition enough_channels (down_conv_nn : list Z) (stride N : Z) : bool :=
  match down_conv_nn with
  | [] => false
  | [_] => (stride >? 1) && negb (N >? 0)
  | _ :: _ :: _ => true
  end.

(** * Properties *)

(** ** What the constructors build *)

(** [+>] computes: a chain of [append]s from the empty stack is the list
    of the appended modules, in order. *)
Lemma append_snoc {A : Type} (s : Seq A) (f : A) : s +> f = s ++ [f].
Proof. reflexivity. Qed.

Lemma floordiv_ok (a b : Z) : b <> 0 -> floordiv a b = inr (a / b).
Proof.
  intros Hb. unfold floordiv.
  destruct (Z.eqb_spec b 0) as [E | _]; [contradiction | reflexivity].
Qed.

Lemma floordiv_zero (a : Z) : floordiv a 0 = inl ZeroDivisionError.
Proof. reflexivity. Qed.

(** The constructor of [BottleneckBlock], once the division is done. *)
Lemma BottleneckBlock_init_ok (input_nc output_nc : Z)
      (convolution : callable) (reduction : Z) :
  reduction <> 0 ->
  BottleneckBlock.__init__ input_nc output_nc convolution reduction =
  inr (BottleneckBlock.mk
         [ TS_nn_Conv3d input_nc (output_nc / reduction) 1 (Some 1) None;
           BatchNorm (output_nc / reduction);
           ReLU true;
           convolution (output_nc / reduction) (output_nc / reduction) 3
                       (Some 1) None;
           BatchNorm (output_nc / reduction);
           ReLU true;
           TS_nn_Conv3d (output_nc / reduction) output_nc 1 None None;
           BatchNorm output_nc;
           ReLU true ]
         (if negb (input_nc =? output_nc)
          then Some [ convolution input_nc output_nc 1 (Some 1) None;
                      BatchNorm output_nc ]
          else None)).
Proof.
  intros Hr. unfold BottleneckBlock.__init__.
  rewrite (floordiv_ok output_nc Hr). reflexivity.
Qed.

(** With [reduction = 0] the constructor raises at its first division. *)
Lemma BottleneckBlock_init_zero (input_nc output_nc : Z)
      (convolution : callable) :
  BottleneckBlock.__init__ input_nc output_nc convolution 0 =
  inl ZeroDivisionError.
Proof. reflexivity. Qed.

(** C3. The main branch of [ResBlock] is, in this order: the
    convolution from [input_nc] to [output_nc] (kernel size 3, stride
    1), [BatchNorm(output_nc)], [ReLU], the convolution from
    [output_nc] to [output_nc] (kernel size 3, stride 1),
    [BatchNorm(output_nc)], [ReLU]. *)
Theorem ResBlock_block_layers (input_nc output_nc : Z)
        (convolution : callable) :
  ResBlock.block (ResBlock.__init__ input_nc output_nc convolution) =
  [ convolution input_nc output_nc 3 (Some 1) None;
    BatchNorm output_nc;
    ReLU true;
    convolution output_nc output_nc 3 (Some 1) None;
    BatchNorm output_nc;
    ReLU true ].
Proof. reflexivity. Qed.

(** With the library's convolution class for [convolution], the two
    convolutions of the main branch have kernel size 3 and stride 1. *)
Example ResBlock_block_Conv3d :
  ResBlock.block (ResBlock.__init__ 16 32 TS_nn_Conv3d) =
  [ Conv3d {| in_channels := 16; out_channels := 32; kernel_size := 3;
              stride := 1; dilation := 1; transpose := false |};
    BatchNorm 32; ReLU true;
    Conv3d {| in_channels := 32; out_channels := 32; kernel_size := 3;
              stride := 1; dilation := 1; transpose := false |};
    BatchNorm 32; ReLU true ].
Proof. reflexivity. Qed.

(** C4. The main branch of [BottleneckBlock] is, in this order: a
    kernel-size-1 convolution from [input_nc] to [output_nc // reduction]
    channels, [BatchNorm], [ReLU], a kernel-size-3 convolution that keeps
    [output_nc // reduction] channels, [BatchNorm], [ReLU], a
    kernel-size-1 convolution from [output_nc // reduction] to
    [output_nc] channels, [BatchNorm], [ReLU]; the intermediate count
    [mid] is the floor of [output_nc / reduction]. *)
Theorem BottleneckBlock_block_layers (input_nc output_nc : Z)
        (convolution : callable) (reduction : Z) :
  reduction <> 0 ->
  exists (self : BottleneckBlock.t) (mid : Z),
    BottleneckBlock.__init__ input_nc output_nc convolution reduction =
    inr self /\
    (0 < reduction -> reduction * mid <= output_nc < reduction * (mid + 1)) /\
    (reduction < 0 -> reduction * (mid + 1) < output_nc <= reduction * mid) /\
    BottleneckBlock.block self =
    [ Conv3d {| in_channels := input_nc; out_channels := mid;
                kernel_size := 1; stride := 1; dilation := 1;
                transpose := false |};
      BatchNorm mid;
      ReLU true;
      convolution mid mid 3 (Some 1) None;
      BatchNorm mid;
      ReLU true;
      Conv3d {| in_channels := mid; out_channels := output_nc;
                kernel_size := 1; stride := 1; dilation := 1;
                transpose := false |};
      BatchNorm output_nc;
      ReLU true ].
Proof.
  intros Hr. eexists. exists (output_nc / reduction).
  split; [exact (BottleneckBlock_init_ok input_nc output_nc convolution Hr) |].
  split; [| split; [| reflexivity]].
  - intros Hpos.
    pose proof (Z.mul_div_le output_nc reduction Hpos).
    pose proof (Z.mul_succ_div_gt output_nc reduction Hpos).
    lia.
  - intros Hneg.
    pose proof (Z.mul_div_ge output_nc reduction Hneg).
    pose proof (Z.mul_succ_div_lt output_nc reduction Hneg).
    lia.
Qed.

Lemma BottleneckBlock_block_layers_witness :
  exists (self : BottleneckBlock.t) (mid : Z),
    BottleneckBlock.__init__ 16 30 partial_Conv3d_transpose
      BottleneckBlock.reduction_default = inr self /\
    (0 < 4 -> 4 * mid <= 30 < 4 * (mid + 1)) /\
    (4 < 0 -> 4 * (mid + 1) < 30 <= 4 * mid) /\
    BottleneckBlock.block self =
    [ Conv3d {| in_channels := 16; out_channels := mid;
                kernel_size := 1; stride := 1; dilation := 1;
                transpose := false |};
      BatchNorm mid;
      ReLU true;
      partial_Conv3d_transpose mid mid 3 (Some 1) None;
      BatchNorm mid;
      ReLU true;
      Conv3d {| in_channels := mid; out_channels := 30;
                kernel_size := 1; stride := 1; dilation := 1;
                transpose := false |};
      BatchNorm 30;
      ReLU true ].
Proof.
  apply (BottleneckBlock_block_layers 16 30 partial_Conv3d_transpose
           (reduction := 4)).
  lia.
Defined.

(** The intermediate count of the example: 30 // 4 = 7. *)
Example BottleneckBlock_mid_30_4 :
  option_map (fun self => nth 1 (BottleneckBlock.block self) (ReLU false))
             (match BottleneckBlock.__init__ 16 30 TS_nn_Conv3d 4 with
              | inr self => Some self
              | inl _ => None
              end) = Some (BatchNorm 7).
Proof. reflexivity. Qed.

(** ** The projection shortcut *)

Lemma ResBlock_downsample (input_nc output_nc : Z) (convolution : callable) :
  ResBlock.downsample (ResBlock.__init__ input_nc output_nc convolution) =
  if input_nc =? output_nc then None
  else Some [ TS_nn_Conv3d input_nc output_nc 1 (Some 1) None;
              BatchNorm output_nc ].
Proof.
  unfold ResBlock.__init__. simpl.
  destruct (input_nc =? output_nc); reflexivity.
Qed.

Lemma BottleneckBlock_downsample (input_nc output_nc : Z)
      (convolution : callable) (reduction : Z) :
  reduction <> 0 ->
  exists self : BottleneckBlock.t,
    BottleneckBlock.__init__ input_nc output_nc convolution reduction =
    inr self /\
    BottleneckBlock.block self <> [] /\
    BottleneckBlock.downsample self =
    if input_nc =? output_nc then None
    else Some [ convolution input_nc output_nc 1 (Some 1) None;
                BatchNorm output_nc ].
Proof.
  intros Hr. eexists.
  split; [exact (BottleneckBlock_init_ok input_nc output_nc convolution Hr) |].
  split; [discriminate |].
  simpl. destruct (input_nc =? output_nc); reflexivity.
Qed.

(** C2. In both constructors the projection shortcut, a convolution of
    kernel size 1 and stride 1 from [input_nc] to [output_nc] channels
    followed by a batch normalization, is built if and only if
    [input_nc != output_nc]; when the two are equal [downsample] is
    [None]. *)
Theorem projection_iff_channels_differ (input_nc output_nc : Z)
        (convolution : callable) (reduction : Z) :
  reduction <> 0 ->
  exists bb : BottleneckBlock.t,
    BottleneckBlock.__init__ input_nc output_nc convolution reduction =
    inr bb /\
    let rb := ResBlock.__init__ input_nc output_nc convolution in
    (input_nc <> output_nc <->
     ResBlock.downsample rb =
     Some [ Conv3d {| in_channels := input_nc; out_channels := output_nc;
                      kernel_size := 1; stride := 1; dilation := 1;
                      transpose := false |};
            BatchNorm output_nc ]) /\
    (input_nc = output_nc <-> ResBlock.downsample rb = None) /\
    (input_nc <> output_nc <->
     BottleneckBlock.downsample bb =
     Some [ convolution input_nc output_nc 1 (Some 1) None;
            BatchNorm output_nc ]) /\
    (input_nc = output_nc <-> BottleneckBlock.downsample bb = None).
Proof.
  intros Hr.
  destruct (BottleneckBlock_downsample input_nc output_nc convolution Hr)
    as (bb & Hbb & _ & Hd).
  exists bb. split; [exact Hbb |].
  cbv zeta. rewrite Hd, ResBlock_downsample.
  destruct (Z.eqb_spec input_nc output_nc) as [E | N];
    repeat split; intros; try reflexivity; try congruence; try discriminate.
Qed.

Lemma projection_iff_channels_differ_witness :
  exists bb : BottleneckBlock.t,
    BottleneckBlock.__init__ 16 32 TS_nn_Conv3d 4 = inr bb /\
    let rb := ResBlock.__init__ 16 32 TS_nn_Conv3d in
    (16 <> 32 <->
     ResBlock.downsample rb =
     Some [ Conv3d {| in_channels := 16; out_channels := 32;
                      kernel_size := 1; stride := 1; dilation := 1;
                      transpose := false |};
            BatchNorm 32 ]) /\
    (16 = 32 <-> ResBlock.downsample rb = None) /\
    (16 <> 32 <->
     BottleneckBlock.downsample bb =
     Some [ TS_nn_Conv3d 16 32 1 (Some 1) None; BatchNorm 32 ]) /\
    (16 = 32 <-> BottleneckBlock.downsample bb = None).
Proof.
  apply (projection_iff_channels_differ 16 32 TS_nn_Conv3d (reduction := 4)).
  lia.
Defined.

(** C7. The projection of [ResBlock] is made with [TS.nn.Conv3d]
    whatever the [convolution] argument is, the projection of
    [BottleneckBlock] is made with the [convolution] argument; both are
    followed by [BatchNorm(output_nc)] and by no activation. *)
Theorem projection_convolution_class (input_nc output_nc : Z)
        (convolution : callable) (reduction : Z) :
  input_nc <> output_nc ->
  reduction <> 0 ->
  exists bb : BottleneckBlock.t,
    BottleneckBlock.__init__ input_nc output_nc convolution reduction =
    inr bb /\
    ResBlock.downsample (ResBlock.__init__ input_nc output_nc convolution) =
    Some [ TS_nn_Conv3d input_nc output_nc 1 (Some 1) None;
           BatchNorm output_nc ] /\
    (forall convolution' : callable,
        ResBlock.downsample
          (ResBlock.__init__ input_nc output_nc convolution') =
        ResBlock.downsample
          (ResBlock.__init__ input_nc output_nc convolution)) /\
    BottleneckBlock.downsample bb =
    Some [ convolution input_nc output_nc 1 (Some 1) None;
           BatchNorm output_nc ].
Proof.
  intros Hne Hr.
  destruct (BottleneckBlock_downsample input_nc output_nc convolution Hr)
    as (bb & Hbb & _ & Hd).
  exists bb. split; [exact Hbb |].
  rewrite Hd. split; [| split].
  - rewrite ResBlock_downsample.
    destruct (Z.eqb_spec input_nc output_nc); [contradiction | reflexivity].
  - intros convolution'. now rewrite !ResBlock_downsample.
  - destruct (Z.eqb_spec input_nc output_nc); [contradiction | reflexivity].
Qed.

Lemma projection_convolution_class_witness :
  exists bb : BottleneckBlock.t,
    BottleneckBlock.__init__ 16 32 partial_Conv3d_transpose 4 = inr bb /\
    ResBlock.downsample (ResBlock.__init__ 16 32 partial_Conv3d_transpose) =
    Some [ TS_nn_Conv3d 16 32 1 (Some 1) None; BatchNorm 32 ] /\
    (forall convolution' : callable,
        ResBlock.downsample (ResBlock.__init__ 16 32 convolution') =
        ResBlock.downsample
          (ResBlock.__init__ 16 32 partial_Conv3d_transpose)) /\
    BottleneckBlock.downsample bb =
    Some [ partial_Conv3d_transpose 16 32 1 (Some 1) None; BatchNorm 32 ].
Proof.
  apply (projection_convolution_class partial_Conv3d_transpose
           (input_nc := 16) (output_nc := 32) (reduction := 4)); lia.
Defined.

(** In a decoder the two projections differ: transposed in
    [BottleneckBlock], not transposed in [ResBlock]. *)
Example projection_transpose_flags :
  ResBlock.downsample (ResBlock.__init__ 16 32 ResNetUp.CONVOLUTION) =
  Some [ Conv3d {| in_channels := 16; out_channels := 32; kernel_size := 1;
                   stride := 1; dilation := 1; transpose := false |};
         BatchNorm 32 ] /\
  option_map BottleneckBlock.downsample
    (match BottleneckBlock.__init__ 16 32 ResNetUp.CONVOLUTION 4 with
     | inr self => Some self
     | inl _ => None
     end) =
  Some (Some [ Conv3d {| in_channels := 16; out_channels := 32;
                         kernel_size := 1; stride := 1; dilation := 1;
                         transpose := true |};
               BatchNorm 32 ]).
Proof. split; reflexivity. Qed.

(** ** The forward pass of a block *)

(** C1. [ResBlock.forward] and [BottleneckBlock.forward] return
    [block(x) + s(x)]: [s] is the [downsample] projection when the module
    was built with [input_nc != output_nc], and the identity
    otherwise. *)
Theorem forward_block_plus_shortcut
        {tensor : Type} {m : Type -> Type} {Mm : Monad m}
        {B : Backend tensor m}
        (input_nc output_nc : Z) (convolution : callable) (reduction : Z) :
  reduction <> 0 ->
  exists bb : BottleneckBlock.t,
    BottleneckBlock.__init__ input_nc output_nc convolution reduction =
    inr bb /\
    let rb := ResBlock.__init__ input_nc output_nc convolution in
    returns_block_plus_shortcut input_nc output_nc
      (ResBlock.block rb) (ResBlock.downsample rb) (ResBlock.forward rb) /\
    returns_block_plus_shortcut input_nc output_nc
      (BottleneckBlock.block bb) (BottleneckBlock.downsample bb)
      (BottleneckBlock.forward bb).
Proof.
  intros Hr.
  destruct (BottleneckBlock_downsample input_nc output_nc convolution Hr)
    as (bb & Hbb & _ & Hd).
  exists bb. split; [exact Hbb |].
  cbv zeta. unfold returns_block_plus_shortcut.
  split; intros x.
  - unfold ResBlock.forward. rewrite ResBlock_downsample.
    destruct (Z.eqb_spec input_nc output_nc) as [E | N];
      split; auto.
  - unfold BottleneckBlock.forward. rewrite Hd.
    destruct (Z.eqb_spec input_nc output_nc) as [E | N];
      split; auto.
Qed.

Lemma forward_block_plus_shortcut_witness :
  exists bb : BottleneckBlock.t,
    BottleneckBlock.__init__ 16 32 TS_nn_Conv3d 4 = inr bb /\
    let rb := ResBlock.__init__ 16 32 TS_nn_Conv3d in
    returns_block_plus_shortcut (B := Channels.backend) 16 32
      (ResBlock.block rb) (ResBlock.downsample rb) (ResBlock.forward rb) /\
    returns_block_plus_shortcut (B := Channels.backend) 16 32
      (BottleneckBlock.block bb) (BottleneckBlock.downsample bb)
      (BottleneckBlock.forward bb).
Proof.
  apply (forward_block_plus_shortcut (B := Channels.backend) 16 32
           TS_nn_Conv3d (reduction := 4)).
  lia.
Defined.

(** On channel counts: a block from 16 to 32 channels takes 16 channels
    to 32 through the projection, a block from 32 to 32 through the
    identity, and a block fed the wrong count fails. *)
Example ResBlock_forward_channels :
  ResBlock.forward (ResBlock.__init__ 16 32 TS_nn_Conv3d) 16 = Some 32 /\
  ResBlock.forward (ResBlock.__init__ 32 32 TS_nn_Conv3d) 32 = Some 32 /\
  ResBlock.forward (ResBlock.__init__ 16 32 TS_nn_Conv3d) 8 = None.
Proof. repeat split; reflexivity. Qed.

(** ** Exceptions of the [ResNetDown] constructor *)

Lemma getattr_block_classes (implicit_attr : string -> bool) :
  getattr_res_blocks implicit_attr "ResBlock" = inr Class_ResBlock /\
  getattr_res_blocks implicit_attr "BottleneckBlock" =
  inr Class_BottleneckBlock.
Proof. split; reflexivity. Qed.

(** Other names of the module pass [getattr] too, e.g. ["Seq"]. *)
Lemma getattr_Seq (implicit_attr : string -> bool) :
  getattr_res_blocks implicit_attr "Seq" = inr Other_object.
Proof. reflexivity. Qed.

(** C5. Nothing is validated and no exception is handled: with
    [down_conv_nn=[]] the constructor of [ResNetDown] raises
    [IndexError] at the indexing of [down_conv_nn]; with a block name
    that is not an attribute of the module it raises [AttributeError]
    from [getattr]; in both cases no module is returned. *)
Theorem ResNetDown_init_raises (implicit_attr : string -> bool)
        (down_conv_nn : list Z) (kernel_size dilation stride N : Z)
        (block block' : string) (cls : attr) :
  getattr_res_blocks implicit_attr block = inr cls ->
  assoc block' module_globals = None ->
  implicit_attr block' = false ->
  ResNetDown.__init__ implicit_attr [] kernel_size dilation stride N block =
  inl IndexError /\
  ResNetDown.__init__ implicit_attr down_conv_nn kernel_size dilation stride
                      N block' = inl AttributeError /\
  (forall self : ResNetDown.t,
      ResNetDown.__init__ implicit_attr [] kernel_size dilation stride N
                          block <> inr self /\
      ResNetDown.__init__ implicit_attr down_conv_nn kernel_size dilation
                          stride N block' <> inr self).
Proof.
  intros Hcls Hglob Himp.
  assert (H1 : ResNetDown.__init__ implicit_attr [] kernel_size dilation
                 stride N block = inl IndexError).
  { unfold ResNetDown.__init__, ResNetDown.init_body.
    rewrite Hcls. simpl. destruct (stride >? 1); reflexivity. }
  assert (H2 : ResNetDown.__init__ implicit_attr down_conv_nn kernel_size
                 dilation stride N block' = inl AttributeError).
  { unfold ResNetDown.__init__, ResNetDown.init_body, getattr_res_blocks.
    rewrite Hglob, Himp. reflexivity. }
  rewrite H1, H2. repeat split; discriminate.
Qed.

Lemma ResNetDown_init_raises_witness :
  ResNetDown.__init__ dunder [] 2 1 2 1 "ResBlock" = inl IndexError /\
  ResNetDown.__init__ dunder [16; 32] 2 1 2 1 "PreActBlock" =
  inl AttributeError /\
  (forall self : ResNetDown.t,
      ResNetDown.__init__ dunder [] 2 1 2 1 "ResBlock" <> inr self /\
      ResNetDown.__init__ dunder [16; 32] 2 1 2 1 "PreActBlock" <> inr self).
Proof.
  apply (@ResNetDown_init_raises dunder [16; 32] 2 1 2 1
           "ResBlock" "PreActBlock" Class_ResBlock); reflexivity.
Defined.

(** The two failures in the order of the source: [getattr] comes first,
    so an unknown block name wins over an empty [down_conv_nn]; and with
    [stride <= 1] a one-element list fails at index 1. *)
Example ResNetDown_init_error_order :
  ResNetDown.__init__ dunder [] 2 1 2 1 "PreActBlock" = inl AttributeError /\
  ResNetDown.__init__ dunder [16] 2 1 1 1 "ResBlock" = inl IndexError /\
  ResNetDown.__init__ dunder [16] 2 1 2 1 "ResBlock" = inl IndexError.
Proof. repeat split; reflexivity. Qed.

(** ** The stages of [ResNetDown] *)

Lemma call_block_class (block : attr) (input_nc output_nc : Z)
      (convolution : callable) :
  block <> Other_object ->
  exists b : block_module,
    call_block block input_nc output_nc convolution = inr b.
Proof.
  intros Hb. destruct block; [| | contradiction].
  - eexists. reflexivity.
  - eexists. unfold call_block.
    rewrite BottleneckBlock_init_ok by (unfold BottleneckBlock.reduction_default; lia).
    reflexivity.
Qed.

(** The loop of the constructor on a list of at least two channel
    counts: it appends [n] modules, the first from [conv1_output] and
    the others from [down_conv_nn[1]]. *)
Lemma init_loop_chain (block : attr) (convolution : callable)
      (d0 d1 : Z) (rest : list Z) :
  block <> Other_object ->
  forall (n : nat) (conv1_output : Z) (acc : Seq block_module),
  exists bs : Seq block_module,
    ResNetDown.init_loop block convolution (d0 :: d1 :: rest) n
                         conv1_output acc = inr (acc ++ bs) /\
    List.length bs = n /\
    block_chain block convolution d1 conv1_output bs.
Proof.
  intros Hb. induction n as [| n IH]; intros c acc.
  - exists []. simpl. rewrite app_nil_r. repeat split. constructor.
  - destruct (call_block_class c d1 convolution Hb) as [b Hcall].
    destruct (IH d1 (acc +> b)) as (bs & Hloop & Hlen & Hchain).
    exists (b :: bs). cbn [ResNetDown.init_loop getitem nth_error].
    cbn [bind ret Monad_result Monad_either]. rewrite Hcall.
    split; [| split].
    + rewrite Hloop, append_snoc, <- app_assoc. reflexivity.
    + simpl. now rewrite Hlen.
    + now constructor.
Qed.

(** What the constructor returns for a list [d0 :: d1 :: rest]. *)
Lemma init_body_ok (implicit_attr : string -> bool) (convolution : callable)
      (d0 d1 : Z) (rest : list Z) (kernel_size dilation stride N : Z)
      (block : string) (cls : attr) :
  getattr_res_blocks implicit_attr block = inr cls ->
  (0 < N -> cls <> Other_object) ->
  let c1 := if stride >? 1 then d0 else d1 in
  let conv_in := [ convolution d0 c1 kernel_size (Some stride) (Some dilation);
                   BatchNorm c1; ReLU true ] in
  exists blocks : option (Seq block_module),
    ResNetDown.init_body implicit_attr convolution (d0 :: d1 :: rest)
      kernel_size dilation stride N block =
    inr (ResNetDown.mk conv_in blocks) /\
    (N <= 0 -> blocks = None) /\
    (0 < N -> exists bs, blocks = Some bs /\
                         List.length bs = Z.to_nat N /\
                         block_chain cls convolution d1 c1 bs).
Proof.
  intros Hcls Hok c1 conv_in.
  unfold ResNetDown.init_body. rewrite Hcls.
  cbn [bind ret Monad_result Monad_either].
  assert (Hc1 : (if stride >? 1 then getitem (d0 :: d1 :: rest) 0
                 else getitem (d0 :: d1 :: rest) 1) = inr c1).
  { subst c1. destruct (stride >? 1); reflexivity. }
  rewrite Hc1. cbn [getitem nth_error bind ret Monad_result Monad_either].
  destruct (Z.gtb_spec N 0) as [Hpos | Hnonpos].
  - destruct (@init_loop_chain cls convolution d0 d1 rest (Hok Hpos)
                (Z.to_nat N) c1 Seq_new) as (bs & Hloop & Hlen & Hchain).
    rewrite Hloop. exists (Some bs). split; [reflexivity |].
    split; [lia |]. intros _. exists bs. auto.
  - exists None. split; [reflexivity |]. split; [reflexivity | lia].
Qed.

Lemma MonadLaws_option : MonadLaws Monad_option.
Proof.
  constructor.
  - reflexivity.
  - intros A [a |]; reflexivity.
  - intros A B C [a |] f g; reflexivity.
Qed.

(** A constructor call that returns has found at least one channel
    count, and two of them unless [stride > 1] and [N <= 0]. *)
Lemma init_body_inv (implicit_attr : string -> bool) (convolution : callable)
      (down_conv_nn : list Z) (kernel_size dilation stride N : Z)
      (block : string) (self : ResNetDown.t) :
  ResNetDown.init_body implicit_attr convolution down_conv_nn kernel_size
                       dilation stride N block = inr self ->
  exists (cls : attr) (input_nc c1 output_nc : Z),
    getattr_res_blocks implicit_attr block = inr cls /\
    ResNetDown.conv_in self =
    [ convolution input_nc c1 kernel_size (Some stride) (Some dilation);
      BatchNorm c1; ReLU true ] /\
    (N <= 0 -> ResNetDown.blocks self = None) /\
    (0 < N -> exists bs, ResNetDown.blocks self = Some bs /\
                         List.length bs = Z.to_nat N /\
                         block_chain cls convolution output_nc c1 bs).
Proof.
  intros Hinit.
  destruct (getattr_res_blocks implicit_attr block) as [e | cls] eqn:Hcls.
  { unfold ResNetDown.init_body in Hinit. rewrite Hcls in Hinit.
    discriminate. }
  exists cls.
  destruct down_conv_nn as [| d0 [| d1 rest]].
  - unfold ResNetDown.init_body in Hinit. rewrite Hcls in Hinit.
    simpl in Hinit. destruct (stride >? 1); discriminate.
  - unfold ResNetDown.init_body in Hinit. rewrite Hcls in Hinit.
    simpl in Hinit. destruct (stride >? 1); [| discriminate].
    simpl in Hinit. destruct (Z.gtb_spec N 0) as [Hpos | Hnonpos].
    + destruct (Z.to_nat N) as [| n] eqn:HN; [lia |].
      simpl in Hinit. discriminate.
    + injection Hinit as <-. exists d0, d0, d0. simpl.
      repeat split; auto. lia.
  - assert (Hok : 0 < N -> cls <> Other_object).
    { intros Hpos ->. unfold ResNetDown.init_body in Hinit.
      rewrite Hcls in Hinit. simpl in Hinit.
      destruct (Z.gtb_spec N 0) as [_ | Hn]; [| lia].
      destruct (Z.to_nat N) as [| n] eqn:HN; [lia |].
      destruct (stride >? 1); simpl in Hinit; discriminate. }
    destruct (@init_body_ok implicit_attr convolution d0 d1 rest kernel_size
                dilation stride N block cls Hcls Hok)
      as (blocks & Heq & Hnone & Hsome).
    rewrite Heq in Hinit. injection Hinit as <-.
    exists d0, (if stride >? 1 then d0 else d1), d1. simpl. auto.
Qed.

(** C8. A [ResNetDown] built with [N <= 0] has [blocks = None] and its
    [forward] returns exactly [conv_in(x)], the strided convolution
    followed by [BatchNorm] and [ReLU]; built with [N > 0], its
    [forward] returns the [N] residual blocks applied one after the
    other to [conv_in(x)]. *)
Theorem ResNetDown_forward_stages
        {tensor : Type} {m : Type -> Type} {Mm : Monad m}
        {ML : MonadLaws Mm} {B : Backend tensor m}
        (implicit_attr : string -> bool) (down_conv_nn : list Z)
        (kernel_size dilation stride N : Z) (block : string)
        (self : ResNetDown.t) :
  ResNetDown.__init__ implicit_attr down_conv_nn kernel_size dilation stride
                      N block = inr self ->
  (exists input_nc c1 : Z,
      ResNetDown.conv_in self =
      [ Conv3d {| in_channels := input_nc; out_channels := c1;
                  kernel_size := kernel_size; stride := stride;
                  dilation := dilation; transpose := false |};
        BatchNorm c1; ReLU true ]) /\
  (N <= 0 ->
   ResNetDown.blocks self = None /\
   forall x : tensor,
     ResNetDown.forward self x =
     Seq_call layer_call (ResNetDown.conv_in self) x) /\
  (0 < N ->
   exists bs : Seq block_module,
     ResNetDown.blocks self = Some bs /\
     List.length bs = Z.to_nat N /\
     (exists (cls : attr) (c1 output_nc : Z),
         block_chain cls ResNetDown.CONVOLUTION output_nc c1 bs) /\
     forall x : tensor,
       ResNetDown.forward self x =
       (out <- Seq_call layer_call (ResNetDown.conv_in self) x ;;
        Seq_call ResNetDown.block_call bs out)).
Proof.
  intros Hinit.
  destruct (init_body_inv _ _ _ _ _ _ _ _ Hinit)
    as (cls & input_nc & c1 & output_nc & _ & Hconv & Hnone & Hsome).
  split; [| split].
  - exists input_nc, c1. exact Hconv.
  - intros HN. split; [auto |]. intros x.
    unfold ResNetDown.forward. rewrite (Hnone HN).
    apply (return_of_bind (MonadLaws := ML)).
  - intros HN. destruct (Hsome HN) as (bs & Hbs & Hlen & Hchain).
    exists bs. split; [exact Hbs |]. split; [exact Hlen |].
    split; [exists cls, c1, output_nc; exact Hchain |].
    intros x. unfold ResNetDown.forward. rewrite Hbs.
    unfold Seq_bool. rewrite Hlen.
    destruct (Z.to_nat N) as [| n] eqn:E; [lia | reflexivity].
Qed.

Lemma ResNetDown_forward_stages_witness :
  (exists self : ResNetDown.t,
      ResNetDown.__init__ dunder [16; 32] 2 1 2 0 "ResBlock" = inr self /\
      ResNetDown.blocks self = None /\
      forall x : Z,
        ResNetDown.forward (B := Channels.backend) self x =
        Seq_call layer_call (ResNetDown.conv_in self) x) /\
  (exists self : ResNetDown.t,
      ResNetDown.__init__ dunder [16; 32] 2 1 2 2 "BottleneckBlock" =
      inr self /\
      exists bs : Seq block_module,
        ResNetDown.blocks self = Some bs /\
        List.length bs = 2%nat /\
        (exists (cls : attr) (c1 output_nc : Z),
            block_chain cls ResNetDown.CONVOLUTION output_nc c1 bs) /\
        forall x : Z,
          ResNetDown.forward (B := Channels.backend) self x =
          (out <- Seq_call layer_call (ResNetDown.conv_in self) x ;;
           Seq_call ResNetDown.block_call bs out)).
Proof.
  split; eexists; (split; [reflexivity |]).
  - refine (proj1 (proj2 (@ResNetDown_forward_stages Z option _
              MonadLaws_option Channels.backend dunder [16; 32] 2 1 2 0
              "ResBlock" _ eq_refl)) _).
    lia.
  - refine (proj2 (proj2 (@ResNetDown_forward_stages Z option _
              MonadLaws_option Channels.backend dunder [16; 32] 2 1 2 2
              "BottleneckBlock" _ eq_refl)) _).
    lia.
Defined.

(** With [N = 0] and [stride > 1] the constructor reads one channel
    count only, and the module it returns has no blocks. *)
Example ResNetDown_init_no_blocks :
  ResNetDown.__init__ dunder [16] 2 1 2 0 "ResBlock" =
  inr (ResNetDown.mk
         [ Conv3d {| in_channels := 16; out_channels := 16; kernel_size := 2;
                     stride := 2; dilation := 1; transpose := false |};
           BatchNorm 16; ReLU true ]
         None).
Proof. reflexivity. Qed.

(** ** Channel counts across the stages *)

(** Runs a forward pass on channel counts whose tests all compare a
    count with itself. *)
Ltac run_channels :=
  repeat (cbn; unfold Channels.add_channels; rewrite ?Z.eqb_refl);
  reflexivity.

(** A block built by one of the two classes from [c] to [output_nc]
    channels, with the library's convolution, takes a tensor of [c]
    channels to one of [output_nc] channels. *)
Lemma block_call_channels (cls : attr) (c output_nc : Z) (tr : bool)
      (b : block_module) :
  call_block cls c output_nc (Conv3d_with tr) = inr b ->
  ResNetDown.block_call (B := Channels.backend) b c = Some output_nc.
Proof.
  destruct cls; cbn; intros H; [| | discriminate]; injection H as <-.
  - unfold ResNetDown.block_call, ResBlock.forward.
    rewrite ResBlock_downsample.
    destruct (Z.eqb_spec c output_nc) as [-> | Hne]; run_channels.
  - destruct (Z.eqb_spec c output_nc) as [-> | Hne]; run_channels.
Qed.

Lemma block_chain_channels (cls : attr) (tr : bool) (output_nc : Z)
      (c : Z) (bs : Seq block_module) :
  block_chain cls (Conv3d_with tr) output_nc c bs ->
  Seq_call (ResNetDown.block_call (B := Channels.backend)) bs c =
  Some (match bs with [] => c | _ :: _ => output_nc end).
Proof.
  induction 1 as [c | c b bs Hcall Hchain IH].
  - reflexivity.
  - cbn [Seq_call]. rewrite (block_call_channels _ _ _ _ Hcall).
    cbn. rewrite IH. destruct bs; reflexivity.
Qed.

Lemma block_chain_inv (cls : attr) (convolution : callable)
      (output_nc c : Z) (bs : Seq block_module) :
  block_chain cls convolution output_nc c bs ->
  bs = [] \/
  exists first others,
    bs = first :: others /\
    call_block cls c output_nc convolution = inr first /\
    block_chain cls convolution output_nc output_nc others.
Proof.
  intros [c' | c' b bs' Hb Hbs]; [left; reflexivity | right; eauto].
Qed.

(** C9. The stages of a [ResNetDown] agree on their channel counts: the
    first convolution takes [down_conv_nn[0]] channels to
    [down_conv_nn[0]] when [stride > 1] and to [down_conv_nn[1]]
    otherwise; the first residual block takes that count to
    [down_conv_nn[1]], every later block takes [down_conv_nn[1]] to
    [down_conv_nn[1]]; so for [N > 0] each stage hands the next one the
    count it expects and the output has [down_conv_nn[1]] channels. *)
Theorem ResNetDown_channel_consistency (implicit_attr : string -> bool)
        (d0 d1 : Z) (rest : list Z) (kernel_size dilation stride N : Z)
        (block : string) :
  block = "ResBlock"%string \/ block = "BottleneckBlock"%string ->
  0 < N ->
  let c1 := if stride >? 1 then d0 else d1 in
  exists (self : ResNetDown.t) (cls : attr) (first : block_module)
         (others : Seq block_module),
    ResNetDown.__init__ implicit_attr (d0 :: d1 :: rest) kernel_size
                        dilation stride N block = inr self /\
    ResNetDown.conv_in self =
    [ Conv3d {| in_channels := d0; out_channels := c1;
                kernel_size := kernel_size; stride := stride;
                dilation := dilation; transpose := false |};
      BatchNorm c1; ReLU true ] /\
    ResNetDown.blocks self = Some (first :: others) /\
    List.length (first :: others) = Z.to_nat N /\
    call_block cls c1 d1 ResNetDown.CONVOLUTION = inr first /\
    Forall (fun b => call_block cls d1 d1 ResNetDown.CONVOLUTION = inr b)
           others /\
    Seq_call (@layer_call _ _ Channels.backend) (ResNetDown.conv_in self) d0
    = Some c1 /\
    ResNetDown.block_call (B := Channels.backend) first c1 = Some d1 /\
    Forall (fun b =>
              ResNetDown.block_call (B := Channels.backend) b d1 = Some d1)
           others /\
    ResNetDown.forward (B := Channels.backend) self d0 = Some d1.
Proof.
  intros Hblock HN c1.
  assert (Hcls : exists cls, getattr_res_blocks implicit_attr block = inr cls
                             /\ cls <> Other_object).
  { destruct Hblock as [-> | ->]; eexists; (split; [reflexivity | discriminate]). }
  destruct Hcls as (cls & Hcls & Hne).
  destruct (@init_body_ok implicit_attr ResNetDown.CONVOLUTION d0 d1 rest
              kernel_size dilation stride N block cls Hcls (fun _ => Hne))
    as (blocks & Hinit & _ & Hsome).
  destruct (Hsome HN) as (bs & -> & Hlen & Hchain).
  destruct (block_chain_inv Hchain) as [-> | (first & others & -> & Hfirst & Hothers)];
    [simpl in Hlen; lia |].
  assert (Hall : Forall (fun b => call_block cls d1 d1 ResNetDown.CONVOLUTION
                                  = inr b) others).
  { clear - Hothers. remember d1 as c eqn:Ec in Hothers at 2.
    induction Hothers as [c | c b bs Hb Hbs IH]; constructor; subst; auto. }
  exists (ResNetDown.mk
            [ResNetDown.CONVOLUTION d0 c1 kernel_size (Some stride)
                                    (Some dilation);
             BatchNorm c1; ReLU true]
            (Some (first :: others))), cls, first, others.
  split; [exact Hinit |].
  split; [reflexivity |].
  split; [reflexivity |].
  split; [exact Hlen |].
  split; [exact Hfirst |].
  split; [exact Hall |].
  assert (Hconv : Seq_call (@layer_call _ _ Channels.backend)
                    [ResNetDown.CONVOLUTION d0 c1 kernel_size (Some stride)
                                            (Some dilation);
                     BatchNorm c1; ReLU true] d0 = Some c1)
    by run_channels.
  assert (Hf : ResNetDown.block_call (B := Channels.backend) first c1
               = Some d1)
    by exact (block_call_channels _ _ _ _ Hfirst).
  split; [exact Hconv |].
  split; [exact Hf |].
  split.
  - eapply Forall_impl; [| exact Hall].
    intros b Hb. exact (block_call_channels _ _ _ _ Hb).
  - unfold ResNetDown.forward. cbn [ResNetDown.conv_in ResNetDown.blocks].
    rewrite Hconv. cbn [bind Monad_option Seq_bool List.length Nat.eqb negb].
    exact (@block_chain_channels cls false d1 c1 (first :: others) Hchain).
Qed.

Lemma ResNetDown_channel_consistency_witness :
  exists (self : ResNetDown.t) (cls : attr) (first : block_module)
         (others : Seq block_module),
    ResNetDown.__init__ dunder [16; 32] 2 1 2 3 "BottleneckBlock" =
    inr self /\
    ResNetDown.conv_in self =
    [ Conv3d {| in_channels := 16; out_channels := 16; kernel_size := 2;
                stride := 2; dilation := 1; transpose := false |};
      BatchNorm 16; ReLU true ] /\
    ResNetDown.blocks self = Some (first :: others) /\
    List.length (first :: others) = 3%nat /\
    call_block cls 16 32 ResNetDown.CONVOLUTION = inr first /\
    Forall (fun b => call_block cls 32 32 ResNetDown.CONVOLUTION = inr b)
           others /\
    Seq_call (@layer_call _ _ Channels.backend) (ResNetDown.conv_in self) 16
    = Some 16 /\
    ResNetDown.block_call (B := Channels.backend) first 16 = Some 32 /\
    Forall (fun b =>
              ResNetDown.block_call (B := Channels.backend) b 32 = Some 32)
           others /\
    ResNetDown.forward (B := Channels.backend) self 16 = Some 32.
Proof.
  apply (@ResNetDown_channel_consistency dunder 16 32 [] 2 1 2 3
           "BottleneckBlock").
  - right. reflexivity.
  - lia.
Defined.

(** For [N <= 0] and [stride > 1] there is no block to reach
    [down_conv_nn[1]]: the output keeps [down_conv_nn[0]] channels. *)
Example ResNetDown_channels_no_blocks :
  match ResNetDown.__init__ dunder [16; 32] 2 1 2 0 "ResBlock" with
  | inr self => ResNetDown.forward (B := Channels.backend) self 16
  | inl _ => None
  end = Some 16.
Proof. reflexivity. Qed.

(** * Further properties of the constructors *)

(** ** ResNetDown and ResNetUp: when the constructor returns *)

Lemma getattr_class_name (implicit_attr : string -> bool) (block : string) :
  block = "ResBlock"%string \/ block = "BottleneckBlock"%string ->
  exists cls : attr,
    getattr_res_blocks implicit_attr block = inr cls /\
    cls <> Other_object.
Proof.
  intros [-> | ->]; eexists; (split; [reflexivity | discriminate]).
Qed.

(** The constructor on a list that is too short, for a block name that
    resolves. *)
Lemma init_body_short (implicit_attr : string -> bool)
      (convolution : callable) (down_conv_nn : list Z)
      (kernel_size dilation stride N : Z) (block : string) (cls : attr) :
  getattr_res_blocks implicit_attr block = inr cls ->
  enough_channels down_conv_nn stride N = false ->
  ResNetDown.init_body implicit_attr convolution down_conv_nn kernel_size
                       dilation stride N block = inl IndexError.
Proof.
  intros Hcls Hshort. unfold ResNetDown.init_body. rewrite Hcls.
  destruct down_conv_nn as [| d0 [| d1 rest]]; cbn in Hshort.
  - cbn. destruct (stride >? 1); reflexivity.
  - cbn. destruct (stride >? 1); [| reflexivity].
    cbn in Hshort |- *. destruct (Z.gtb_spec N 0) as [Hpos | Hn];
      [| discriminate].
    destruct (Z.to_nat N) as [| n] eqn:HN; [lia | reflexivity].
  - discriminate.
Qed.

(** X3. For a block name that is one of the two block classes: with an
    empty [down_conv_nn], or with a single channel count and
    [stride <= 1], the constructors of [ResNetDown] and [ResNetUp] raise
    [IndexError]; and a constructor that returns a module was given two
    channel counts, or one with [stride > 1] and [N <= 0]. *)
Theorem ResNet_init_needs_channels (implicit_attr : string -> bool)
        (down_conv_nn : list Z) (kernel_size dilation stride N : Z)
        (block : string) :
  block = "ResBlock"%string \/ block = "BottleneckBlock"%string ->
  (down_conv_nn = [] \/
   (List.length down_conv_nn = 1%nat /\ stride <= 1) ->
   ResNetDown.__init__ implicit_attr down_conv_nn kernel_size dilation
                       stride N block = inl IndexError /\
   ResNetUp.__init__ implicit_attr down_conv_nn kernel_size dilation
                     stride N block = inl IndexError) /\
  (forall self : ResNetDown.t,
      ResNetDown.__init__ implicit_attr down_conv_nn kernel_size dilation
                          stride N block = inr self \/
      ResNetUp.__init__ implicit_attr down_conv_nn kernel_size dilation
                        stride N block = inr self ->
      enough_channels down_conv_nn stride N = true).
Proof.
  intros Hblock.
  destruct (getattr_class_name implicit_attr Hblock) as (cls & Hcls & Hne).
  split.
  - intros Hshort.
    assert (Hen : enough_channels down_conv_nn stride N = false).
    { destruct Hshort as [-> | [Hlen Hs]]; [reflexivity |].
      destruct down_conv_nn as [| d0 [| d1 rest]]; try discriminate.
      cbn. destruct (Z.gtb_spec stride 1); [lia | reflexivity]. }
    split; eapply init_body_short; eassumption.
  - intros self Hret.
    destruct (enough_channels down_conv_nn stride N) eqn:Hen;
      [reflexivity |].
    destruct Hret as [H | H];
      unfold ResNetDown.__init__, ResNetUp.__init__ in H;
      erewrite init_body_short in H by eassumption; discriminate.
Qed.

Lemma ResNet_init_needs_channels_witness :
  ResNetDown.__init__ dunder [16] 2 1 1 0 "BottleneckBlock" =
  inl IndexError /\
  ResNetUp.__init__ dunder [16] 2 1 1 0 "BottleneckBlock" = inl IndexError.
Proof.
  refine (proj1 (@ResNet_init_needs_channels dunder [16] 2 1 1 0
                   "BottleneckBlock" _) _).
  - right. reflexivity.
  - right. split; [reflexivity | lia].
Defined.

(** One channel count, [stride > 1] and one block: the constructor gets
    as far as the loop and returns no module. *)
Example ResNet_init_one_count_one_block :
  enough_channels [16] 2 1 = false /\
  ResNetUp.__init__ dunder [16] 2 1 2 1 "BottleneckBlock" = inl IndexError.
Proof. split; reflexivity. Qed.

(** ** ResNetDown and ResNetUp: which arguments reach which part *)

Lemma init_loop_tail (block : attr) (convolution : callable)
      (d0 d1 : Z) (rest : list Z) :
  forall (n : nat) (conv1_output : Z) (acc : Seq block_module),
    ResNetDown.init_loop block convolution (d0 :: d1 :: rest) n
                         conv1_output acc =
    ResNetDown.init_loop block convolution [d0; d1] n conv1_output acc.
Proof.
  induction n as [| n IH]; intros c acc; [reflexivity |].
  cbn [ResNetDown.init_loop getitem nth_error].
  cbn [bind ret Monad_result Monad_either].
  destruct (call_block block c d1 convolution) as [e | b];
    [reflexivity | apply IH].
Qed.

Lemma init_body_tail (implicit_attr : string -> bool) (convolution : callable)
      (d0 d1 : Z) (rest : list Z) (kernel_size dilation stride N : Z)
      (block : string) :
  ResNetDown.init_body implicit_attr convolution (d0 :: d1 :: rest)
                       kernel_size dilation stride N block =
  ResNetDown.init_body implicit_attr convolution [d0; d1]
                       kernel_size dilation stride N block.
Proof.
  unfold ResNetDown.init_body.
  destruct (getattr_res_blocks implicit_attr block) as [e | cls];
    [reflexivity |].
  cbn [bind ret Monad_result Monad_either].
  destruct (stride >? 1); cbn [getitem nth_error bind ret Monad_result
                                 Monad_either];
    destruct (N >? 0); try reflexivity; now rewrite init_loop_tail.
Qed.

(** X4. The constructors read [down_conv_nn[0]] and [down_conv_nn[1]]
    only: channel counts after the second are ignored, whatever the
    other arguments are. *)
Theorem ResNet_init_ignores_tail (implicit_attr : string -> bool)
        (d0 d1 : Z) (rest : list Z) (kernel_size dilation stride N : Z)
        (block : string) :
  ResNetDown.__init__ implicit_attr (d0 :: d1 :: rest) kernel_size dilation
                      stride N block =
  ResNetDown.__init__ implicit_attr [d0; d1] kernel_size dilation stride N
                      block /\
  ResNetUp.__init__ implicit_attr (d0 :: d1 :: rest) kernel_size dilation
                    stride N block =
  ResNetUp.__init__ implicit_attr [d0; d1] kernel_size dilation stride N
                    block.
Proof. split; apply init_body_tail. Qed.

(** X5. [kernel_size] and [dilation] reach the first convolution only:
    the residual blocks of the module, or the exception raised, are the
    same whatever these two arguments are. *)
Theorem ResNet_blocks_ignore_kernel_dilation (implicit_attr : string -> bool)
        (convolution : callable) (down_conv_nn : list Z)
        (kernel_size dilation kernel_size' dilation' stride N : Z)
        (block : string) :
  result_map ResNetDown.blocks
    (ResNetDown.init_body implicit_attr convolution down_conv_nn kernel_size
                          dilation stride N block) =
  result_map ResNetDown.blocks
    (ResNetDown.init_body implicit_attr convolution down_conv_nn kernel_size'
                          dilation' stride N block).
Proof.
  unfold ResNetDown.init_body.
  destruct (getattr_res_blocks implicit_attr block) as [e | cls];
    [reflexivity |].
  cbn [bind ret Monad_result Monad_either].
  destruct (if stride >? 1 then getitem down_conv_nn 0
            else getitem down_conv_nn 1) as [e | c1]; [reflexivity |].
  destruct (getitem down_conv_nn 0) as [e | d0]; [reflexivity |].
  destruct (N >? 0); [| reflexivity].
  destruct (ResNetDown.init_loop cls convolution down_conv_nn (Z.to_nat N)
                                 c1 Seq_new); reflexivity.
Qed.

(** The two arguments do reach [conv_in]. *)
Example ResNet_conv_in_kernel_dilation :
  result_map ResNetDown.conv_in
    (ResNetDown.__init__ dunder [16; 32] 5 3 2 1 "ResBlock") =
  inr [ Conv3d {| in_channels := 16; out_channels := 16; kernel_size := 5;
                  stride := 2; dilation := 3; transpose := false |};
        BatchNorm 16; ReLU true ].
Proof. reflexivity. Qed.

(** X6. With [N <= 0] the object that [block] names is never called:
    two names that both resolve give the same outcome, whatever they
    name. *)
Theorem ResNet_no_blocks_any_name (implicit_attr : string -> bool)
        (convolution : callable) (down_conv_nn : list Z)
        (kernel_size dilation stride N : Z) (block block' : string)
        (cls cls' : attr) :
  N <= 0 ->
  getattr_res_blocks implicit_attr block = inr cls ->
  getattr_res_blocks implicit_attr block' = inr cls' ->
  ResNetDown.init_body implicit_attr convolution down_conv_nn kernel_size
                       dilation stride N block =
  ResNetDown.init_body implicit_attr convolution down_conv_nn kernel_size
                       dilation stride N block'.
Proof.
  intros HN Hcls Hcls'. unfold ResNetDown.init_body.
  rewrite Hcls, Hcls'. cbn [bind ret Monad_result Monad_either].
  destruct (Z.gtb_spec N 0) as [Hpos | _]; [lia | reflexivity].
Qed.

Lemma ResNet_no_blocks_any_name_witness :
  ResNetDown.init_body dunder ResNetDown.CONVOLUTION [16; 32] 2 1 2 0
                       "ResBlock" =
  ResNetDown.init_body dunder ResNetDown.CONVOLUTION [16; 32] 2 1 2 0 "sys".
Proof.
  apply (@ResNet_no_blocks_any_name dunder ResNetDown.CONVOLUTION [16; 32]
           2 1 2 0 "ResBlock" "sys" Class_ResBlock Other_object);
    [lia | reflexivity | reflexivity].
Defined.

(** ** The residual blocks of a built module *)

(** A block built from [input_nc] to [output_nc] channels has a
    projection exactly when the two counts differ. *)
Lemma call_block_shortcut (cls : attr) (input_nc output_nc : Z)
      (convolution : callable) (b : block_module) :
  call_block cls input_nc output_nc convolution = inr b ->
  (shortcut b = None <-> input_nc = output_nc).
Proof.
  destruct cls; cbn; intros H; [| | discriminate]; injection H as <-; cbn.
  - destruct (Z.eqb_spec input_nc output_nc); cbn; split; intros;
      congruence.
  - destruct (Z.eqb_spec input_nc output_nc); cbn; split; intros;
      congruence.
Qed.

Lemma block_chain_no_shortcut (cls : attr) (convolution : callable)
      (output_nc c : Z) (bs : Seq block_module) :
  block_chain cls convolution output_nc c bs ->
  c = output_nc ->
  Forall (fun b => shortcut b = None) bs.
Proof.
  induction 1 as [c | c b bs Hb Hbs IH]; intros Hc; constructor.
  - apply (call_block_shortcut _ _ _ _ Hb). exact Hc.
  - apply IH. reflexivity.
Qed.

(** X7. In a module built with [N > 0] only the first residual block
    can have a projection shortcut, and it has one exactly when
    [stride > 1] and [down_conv_nn[0] != down_conv_nn[1]]; every later
    block adds its input unchanged. *)
Theorem ResNet_projection_first_block_only
        (implicit_attr : string -> bool) (convolution : callable)
        (d0 d1 : Z) (rest : list Z) (kernel_size dilation stride N : Z)
        (block : string) :
  block = "ResBlock"%string \/ block = "BottleneckBlock"%string ->
  0 < N ->
  exists (self : ResNetDown.t) (first : block_module)
         (others : Seq block_module),
    ResNetDown.init_body implicit_attr convolution (d0 :: d1 :: rest)
                         kernel_size dilation stride N block = inr self /\
    ResNetDown.blocks self = Some (first :: others) /\
    (shortcut first <> None <-> 1 < stride /\ d0 <> d1) /\
    Forall (fun b => shortcut b = None) others.
Proof.
  intros Hblock HN.
  destruct (getattr_class_name implicit_attr Hblock) as (cls & Hcls & Hne).
  destruct (@init_body_ok implicit_attr convolution d0 d1 rest kernel_size
              dilation stride N block cls Hcls (fun _ => Hne))
    as (blocks & Hinit & _ & Hsome).
  destruct (Hsome HN) as (bs & -> & Hlen & Hchain).
  destruct (block_chain_inv Hchain)
    as [-> | (first & others & -> & Hfirst & Hothers)];
    [simpl in Hlen; lia |].
  eexists. exists first, others.
  split; [exact Hinit |]. split; [reflexivity |].
  split.
  - pose proof (call_block_shortcut _ _ _ _ Hfirst) as Hiff.
    destruct (Z.gtb_spec stride 1) as [Hs | Hs].
    + split.
      * intros Hsc. split; [exact Hs |]. intros E. apply Hsc, Hiff, E.
      * intros [_ Hd] Hsc. apply Hd, Hiff, Hsc.
    + split.
      * intros Hsc. exfalso. apply Hsc, Hiff. reflexivity.
      * intros [Hgt _]. lia.
  - exact (block_chain_no_shortcut Hothers eq_refl).
Qed.

Lemma ResNet_projection_first_block_only_witness :
  exists (self : ResNetDown.t) (first : block_module)
         (others : Seq block_module),
    ResNetDown.init_body dunder ResNetUp.CONVOLUTION [16; 32] 2 1 2 3
                         "ResBlock" = inr self /\
    ResNetDown.blocks self = Some (first :: others) /\
    (shortcut first <> None <-> 1 < 2 /\ 16 <> 32) /\
    Forall (fun b => shortcut b = None) others.
Proof.
  apply (@ResNet_projection_first_block_only dunder ResNetUp.CONVOLUTION
           16 32 [] 2 1 2 3 "ResBlock").
  - left. reflexivity.
  - lia.
Defined.

(** With [stride <= 1] no block has a projection, even when the two
    channel counts differ: the first convolution already changes the
    count. *)
Example ResNet_no_projection_stride_1 :
  result_map (fun self => option_map (map shortcut) (ResNetDown.blocks self))
    (ResNetDown.__init__ dunder [16; 32] 2 1 1 2 "ResBlock") =
  inr (Some [None; None]).
Proof. reflexivity. Qed.

Lemma call_block_keeps_resolution (cls : attr) (input_nc output_nc : Z)
      (tr : bool) (b : block_module) :
  call_block cls input_nc output_nc (Conv3d_with tr) = inr b ->
  Forall keeps_resolution (block_layers b).
Proof.
  destruct cls; cbn; intros H; [| | discriminate]; injection H as <-;
    unfold block_layers; cbn;
    destruct (input_nc =? output_nc); cbn;
    repeat (first [apply Forall_nil | apply Forall_cons]); cbn; auto.
Qed.

Lemma block_chain_keeps_resolution (cls : attr) (tr : bool)
      (output_nc c : Z) (bs : Seq block_module) :
  block_chain cls (Conv3d_with tr) output_nc c bs ->
  Forall (fun b => Forall keeps_resolution (block_layers b)) bs.
Proof.
  induction 1 as [c | c b bs Hb Hbs IH]; constructor; auto.
  exact (call_block_keeps_resolution _ _ _ _ Hb).
Qed.

(** X8. Whatever [stride], [kernel_size] and [dilation] a [ResNetDown]
    or a [ResNetUp] is built with, every convolution inside its
    residual blocks has stride 1, dilation 1 and kernel size 1 or 3:
    the resolution changes in [conv_in] only. *)
Theorem ResNet_blocks_keep_resolution (implicit_attr : string -> bool)
        (down_conv_nn : list Z) (kernel_size dilation stride N : Z)
        (block : string) (self : ResNetDown.t) (bs : Seq block_module) :
  ResNetDown.__init__ implicit_attr down_conv_nn kernel_size dilation stride
                      N block = inr self \/
  ResNetUp.__init__ implicit_attr down_conv_nn kernel_size dilation stride
                    N block = inr self ->
  ResNetDown.blocks self = Some bs ->
  Forall (fun b => Forall keeps_resolution (block_layers b)) bs.
Proof.
  intros Hinit Hbs.
  assert (Hgen : exists tr,
             ResNetDown.init_body implicit_attr (Conv3d_with tr) down_conv_nn
               kernel_size dilation stride N block = inr self).
  { destruct Hinit as [H | H]; [exists false | exists true]; exact H. }
  destruct Hgen as (tr & H).
  destruct (init_body_inv _ _ _ _ _ _ _ _ H)
    as (cls & input_nc & c1 & output_nc & _ & _ & Hnone & Hsome).
  destruct (Z.le_gt_cases N 0) as [HN | HN].
  - rewrite (Hnone HN) in Hbs. discriminate.
  - destruct (Hsome HN) as (bs' & Hbs' & _ & Hchain).
    rewrite Hbs' in Hbs. injection Hbs as <-.
    exact (block_chain_keeps_resolution Hchain).
Qed.

Lemma ResNet_blocks_keep_resolution_witness :
  exists (self : ResNetDown.t) (bs : Seq block_module),
    ResNetUp.__init__ dunder [16; 32] 5 3 4 2 "BottleneckBlock" = inr self /\
    ResNetDown.blocks self = Some bs /\
    Forall (fun b => Forall keeps_resolution (block_layers b)) bs.
Proof.
  eexists. eexists. split; [reflexivity |]. split; [reflexivity |].
  eapply (@ResNet_blocks_keep_resolution dunder [16; 32] 5 3 4 2
            "BottleneckBlock");
    [right; reflexivity | reflexivity].
Defined.

(** ** ResNetUp against ResNetDown *)

Lemma call_block_untranspose (cls : attr) (input_nc output_nc : Z)
      (tr : bool) :
  result_map untranspose_block
             (call_block cls input_nc output_nc (Conv3d_with tr)) =
  call_block cls input_nc output_nc (Conv3d_with false).
Proof.
  destruct cls; [| | reflexivity];
    unfold call_block, ResBlock.__init__, BottleneckBlock.__init__; cbn;
    destruct (input_nc =? output_nc); reflexivity.
Qed.

Lemma init_loop_untranspose (cls : attr) (tr : bool) (down_conv_nn : list Z) :
  forall (n : nat) (conv1_output : Z) (acc : Seq block_module),
    result_map (map untranspose_block)
      (ResNetDown.init_loop cls (Conv3d_with tr) down_conv_nn n
                            conv1_output acc) =
    ResNetDown.init_loop cls (Conv3d_with false) down_conv_nn n
                         conv1_output (map untranspose_block acc).
Proof.
  induction n as [| n IH]; intros c acc; [reflexivity |].
  cbn [ResNetDown.init_loop].
  destruct (getitem down_conv_nn 1) as [e | o]; [reflexivity |].
  cbn [bind ret Monad_result Monad_either].
  rewrite <- (call_block_untranspose cls c o tr).
  destruct (call_block cls c o (Conv3d_with tr)) as [e | b];
    [reflexivity |].
  cbn [result_map]. rewrite IH, append_snoc, map_app. reflexivity.
Qed.

Lemma init_body_untranspose (implicit_attr : string -> bool) (tr : bool)
      (down_conv_nn : list Z) (kernel_size dilation stride N : Z)
      (block : string) :
  result_map untranspose_module
    (ResNetDown.init_body implicit_attr (Conv3d_with tr) down_conv_nn
                          kernel_size dilation stride N block) =
  ResNetDown.init_body implicit_attr (Conv3d_with false) down_conv_nn
                       kernel_size dilation stride N block.
Proof.
  unfold ResNetDown.init_body.
  destruct (getattr_res_blocks implicit_attr block) as [e | cls];
    [reflexivity |].
  cbn [bind ret Monad_result Monad_either].
  destruct (if stride >? 1 then getitem down_conv_nn 0
            else getitem down_conv_nn 1) as [e | c1]; [reflexivity |].
  destruct (getitem down_conv_nn 0) as [e | d0]; [reflexivity |].
  destruct (N >? 0); [| reflexivity].
  change (@Seq_new block_module) with (map untranspose_block Seq_new) at 2.
  rewrite <- (init_loop_untranspose cls tr down_conv_nn (Z.to_nat N) c1
                                    Seq_new).
  destruct (ResNetDown.init_loop cls (Conv3d_with tr) down_conv_nn
                                 (Z.to_nat N) c1 Seq_new); reflexivity.
Qed.

(** X9. [ResNetUp] builds the module [ResNetDown] builds from the same
    arguments, up to the [transpose] flag of its convolutions, and
    raises the same exception when [ResNetDown] raises; [ResNetDown]
    itself builds no transposed convolution. *)
Theorem ResNetUp_init_untransposed (implicit_attr : string -> bool)
        (conv_nn : list Z) (kernel_size dilation stride N : Z)
        (block : string) :
  result_map untranspose_module
    (ResNetUp.__init__ implicit_attr conv_nn kernel_size dilation stride N
                       block) =
  ResNetDown.__init__ implicit_attr conv_nn kernel_size dilation stride N
                      block /\
  result_map untranspose_module
    (ResNetDown.__init__ implicit_attr conv_nn kernel_size dilation stride N
                         block) =
  ResNetDown.__init__ implicit_attr conv_nn kernel_size dilation stride N
                      block.
Proof. split; apply init_body_untranspose. Qed.

(** The flag is set on the first convolution and on the main branch of
    a [ResBlock], not on its projection. *)
Example ResNetUp_init_flags :
  ResNetUp.__init__ dunder [16; 32] 2 1 2 1 "ResBlock" =
  inr (ResNetDown.mk
         [ Conv3d {| in_channels := 16; out_channels := 16; kernel_size := 2;
                     stride := 2; dilation := 1; transpose := true |};
           BatchNorm 16; ReLU true ]
         (Some
            [ Is_ResBlock
                (ResBlock.mk
                   [ Conv3d {| in_channels := 16; out_channels := 32;
                               kernel_size := 3; stride := 1; dilation := 1;
                               transpose := true |};
                     BatchNorm 32; ReLU true;
                     Conv3d {| in_channels := 32; out_channels := 32;
                               kernel_size := 3; stride := 1; dilation := 1;
                               transpose := true |};
                     BatchNorm 32; ReLU true ]
                   (Some
                      [ Conv3d {| in_channels := 16; out_channels := 32;
                                  kernel_size := 1; stride := 1;
                                  dilation := 1; transpose := false |};
                        BatchNorm 32 ])) ])).
Proof. reflexivity. Qed.

(** ** Channel counts a forward pass accepts *)

(** X10. Under the library's shape rules, for positive channel counts
    (and, in [BottleneckBlock], an intermediate count of at least 1): a
    residual block built from [input_nc] to [output_nc] channels
    accepts a tensor exactly when it has [input_nc] channels, and then
    returns [output_nc] channels, with or without a projection
    shortcut. *)
Theorem block_forward_channels (input_nc output_nc : Z) (tr : bool)
        (reduction : Z) (c : Z) (bb : BottleneckBlock.t) :
  0 < input_nc ->
  0 < output_nc ->
  0 < reduction <= output_nc ->
  BottleneckBlock.__init__ input_nc output_nc (Conv3d_with tr) reduction =
  inr bb ->
  ResBlock.forward (B := Channels.backend)
    (ResBlock.__init__ input_nc output_nc (Conv3d_with tr)) c =
  (if c =? input_nc then Some output_nc else None) /\
  BottleneckBlock.forward (B := Channels.backend) bb c =
  (if c =? input_nc then Some output_nc else None).
Proof.
  intros _ _ Hr Hbb.
  rewrite BottleneckBlock_init_ok in Hbb by lia. injection Hbb as <-.
  split.
  - unfold ResBlock.forward. rewrite ResBlock_downsample. cbn.
    destruct (Z.eqb_spec c input_nc) as [-> | Hc]; [| reflexivity].
    destruct (Z.eqb_spec input_nc output_nc) as [-> | Hne]; run_channels.
  - unfold BottleneckBlock.forward. cbn.
    destruct (Z.eqb_spec c input_nc) as [-> | Hc]; [| reflexivity].
    destruct (Z.eqb_spec input_nc output_nc) as [-> | Hne]; run_channels.
Qed.

Lemma block_forward_channels_witness :
  exists bb : BottleneckBlock.t,
    BottleneckBlock.__init__ 16 32 (Conv3d_with false) 4 = inr bb /\
    ResBlock.forward (B := Channels.backend)
      (ResBlock.__init__ 16 32 (Conv3d_with false)) 24 =
    (if 24 =? 16 then Some 32 else None) /\
    BottleneckBlock.forward (B := Channels.backend) bb 24 =
    (if 24 =? 16 then Some 32 else None).
Proof.
  eexists. split; [reflexivity |].
  apply (@block_forward_channels 16 32 false 4 24);
    [lia | lia | lia | reflexivity].
Defined.

(** The whole module, built from at least two channel counts with
    [N > 0]: it accepts [d0] channels and returns [d1]. *)
Lemma ResNetDown_forward_channels (implicit_attr : string -> bool)
      (tr : bool) (d0 d1 : Z) (rest : list Z)
      (kernel_size dilation stride N : Z) (block : string) :
  block = "ResBlock"%string \/ block = "BottleneckBlock"%string ->
  0 < N ->
  exists self : ResNetDown.t,
    ResNetDown.init_body implicit_attr (Conv3d_with tr) (d0 :: d1 :: rest)
                         kernel_size dilation stride N block = inr self /\
    forall c : Z,
      ResNetDown.forward (B := Channels.backend) self c =
      (if c =? d0 then Some d1 else None).
Proof.
  intros Hblock HN.
  destruct (getattr_class_name implicit_attr Hblock) as (cls & Hcls & Hne).
  destruct (@init_body_ok implicit_attr (Conv3d_with tr) d0 d1 rest
              kernel_size dilation stride N block cls Hcls (fun _ => Hne))
    as (blocks & Hinit & _ & Hsome).
  destruct (Hsome HN) as (bs & -> & Hlen & Hchain).
  eexists. split; [exact Hinit |].
  intros c. unfold ResNetDown.forward.
  cbn [ResNetDown.conv_in ResNetDown.blocks Seq_call layer_call
       Channels.backend Channels.layer_channels Conv3d_with in_channels
       out_channels bind ret Monad_option].
  destruct (Z.eqb_spec c d0) as [-> | Hc]; [| reflexivity].
  rewrite !Z.eqb_refl.
  pose proof (block_chain_channels Hchain) as Hrun.
  destruct bs as [| b bs]; [simpl in Hlen; lia |].
  cbn [Seq_bool List.length Nat.eqb negb]. exact Hrun.
Qed.

(** X11. Under the library's shape rules, for positive channel counts
    (and [up_conv_nn[1] >= 4] with [BottleneckBlock], whose intermediate
    count is [up_conv_nn[1] // 4]): a [ResNetUp] that was built with
    [N > 0] accepts an input and a skip tensor exactly when their
    channel counts add up to [up_conv_nn[0]], accepts an input alone
    exactly when it has [up_conv_nn[0]] channels, and returns
    [up_conv_nn[1]] channels. *)
Theorem ResNetUp_forward_channels (implicit_attr : string -> bool)
        (d0 d1 : Z) (rest : list Z) (kernel_size dilation stride N : Z)
        (block : string) (self : ResNetDown.t) :
  block = "ResBlock"%string \/ block = "BottleneckBlock"%string ->
  0 < N ->
  0 < d0 ->
  0 < d1 ->
  (block = "BottleneckBlock"%string -> 4 <= d1) ->
  ResNetUp.__init__ implicit_attr (d0 :: d1 :: rest) kernel_size dilation
                    stride N block = inr self ->
  (forall c skip : Z,
      ResNetUp.forward (B := Channels.backend) self c (Some skip) =
      (if c + skip =? d0 then Some d1 else None)) /\
  (forall c : Z,
      ResNetUp.forward (B := Channels.backend) self c None =
      (if c =? d0 then Some d1 else None)).
Proof.
  intros Hblock HN _ _ _ Hself.
  destruct (@ResNetDown_forward_channels implicit_attr true d0 d1 rest
              kernel_size dilation stride N block Hblock HN)
    as (self' & Hinit & Hfwd).
  unfold ResNetUp.__init__, ResNetUp.CONVOLUTION,
    partial_Conv3d_transpose in Hself.
  rewrite Hinit in Hself. injection Hself as <-.
  split.
  - intros c skip. unfold ResNetUp.forward.
    cbn [TS_cat Channels.backend Channels.cat_channels fold_right bind
         Monad_option].
    rewrite Z.add_0_r. apply Hfwd.
  - intros c. apply Hfwd.
Qed.

Lemma ResNetUp_forward_channels_witness :
  exists self : ResNetDown.t,
    ResNetUp.__init__ dunder [48; 16] 2 1 2 2 "BottleneckBlock" =
    inr self /\
    (forall c skip : Z,
        ResNetUp.forward (B := Channels.backend) self c (Some skip) =
        (if c + skip =? 48 then Some 16 else None)) /\
    (forall c : Z,
        ResNetUp.forward (B := Channels.backend) self c None =
        (if c =? 48 then Some 16 else None)).
Proof.
  eexists. split; [reflexivity |].
  apply (@ResNetUp_forward_channels dunder 48 16 [] 2 1 2 2
           "BottleneckBlock");
    [right; reflexivity | lia | lia | lia | intros _; lia | reflexivity].
Defined.

(** A decoder stage fed 32 channels and a skip of 16. *)
Example ResNetUp_forward_skip :
  result_map (fun self =>
                (ResNetUp.forward (B := Channels.backend) self 32 (Some 16),
                 ResNetUp.forward (B := Channels.backend) self 32 None))
    (ResNetUp.__init__ dunder [48; 16] 2 1 2 2 "ResBlock") =
  inr (Some 16, None).
Proof. reflexivity. Qed.
